(** * The e-commerce platform: catalog, cart and order stores

  A shallow embedding of the three Express services
  (product-service/index.js, cart-service/index.js and
  order-service/index.js) and the properties of their request
  handlers. *)

From Stdlib Require Import ZArith List Ascii Lia Sorted.
From Stdlib Require Import DecimalString DecimalPos.
From stdpp Require Import base gmap strings list.
Import ListNotations.

Local Open Scope Z_scope.

(** ** JavaScript values and the built-ins the handlers call *)

Module Js.

(** A JavaScript number as the handlers meet it: [NaN] or an
    integer.  [parseInt] and [orders.length + 1] only produce these;
    the integer is exact here, whereas a double rounds beyond 2^53
    in magnitude (see [parseInt]). *)
Inductive number : Type :=
| NaN
| Int (z : Z).

(** What [express.json()] hands over in a body field: a JSON value,
    or [Undefined] when the field is missing.  Numbers are the
    integer ones; a fraction is never [===] to what [parseInt]
    returns, like every value here that is not a number. *)
#[warnings="-register-all"]
Inductive value : Type :=
| Undefined
| Null
| Bool (b : bool)
| Num (n : number)
| Str (s : string)
| Arr (elems : list value)
| Obj (fields : list (string * value)).

(** [a === b] on two numbers: [NaN] equals nothing, itself included. *)
Definition number_eqb (a b : number) : bool :=
  match a, b with
  | Int x, Int y => x =? y
  | _, _ => false
  end.

(** [v === n] where the right operand is a number: no coercion, so
    only a number can be equal to it. *)
Definition strict_eqb (v : value) (n : number) : bool :=
  match v with
  | Num m => number_eqb m n
  | _ => false
  end.

(** StrWhiteSpaceChar among the code units below 256: TAB, LF, VT,
    FF, CR, SP and NBSP. *)
Definition is_white_space (c : ascii) : bool :=
  let n := N_of_ascii c in
  ((n =? 9) || (n =? 10) || (n =? 11) || (n =? 12) || (n =? 13)
   || (n =? 32) || (n =? 160))%N.

Fixpoint trim_start (s : string) : string :=
  match s with
  | String c rest => if is_white_space c then trim_start rest else s
  | EmptyString => s
  end.

(** The value of a character as a digit: [0]-[9] count 0 to 9 and a
    letter of either case counts 10 ([a]) to 35 ([z]). *)
Definition digit_of_ascii (c : ascii) : option Z :=
  let n := Z.of_N (N_of_ascii c) in
  if (48 <=? n) && (n <=? 57) then Some (n - 48)
  else if (97 <=? n) && (n <=? 122) then Some (n - 87)
  else if (65 <=? n) && (n <=? 90) then Some (n - 55)
  else None.

Definition digit_value (radix : Z) (c : ascii) : option Z :=
  match digit_of_ascii c with
  | Some d => if d <? radix then Some d else None
  | None => None
  end.

(** Reads the longest prefix of radix digits; [acc] is [None] until
    a first digit has been read. *)
Fixpoint scan_digits (radix : Z) (s : string) (acc : option Z) : option Z :=
  match s with
  | String c rest =>
      match digit_value radix c with
      | Some d =>
          scan_digits radix rest
            (Some (radix * (match acc with Some a => a | None => 0 end) + d))
      | None => acc
      end
  | EmptyString => acc
  end.

Definition strip_sign (s : string) : Z * string :=
  match s with
  | String "-" rest => (-1, rest)
  | String "+" rest => (1, rest)
  | _ => (1, s)
  end.

Definition strip_prefix (s : string) : Z * string :=
  match s with
  | String "0" (String "x" rest) => (16, rest)
  | String "0" (String "X" rest) => (16, rest)
  | _ => (10, s)
  end.

(** [parseInt(string)] with no radix argument (ECMAScript
    19.2.5): leading white space is dropped, then a sign, then a
    [0x] prefix selects radix 16, then the longest run of digits is
    read; no digit at all gives [NaN] and whatever follows the
    digits is ignored.  The result is the exact integer: it agrees
    with the double JavaScript returns whenever that integer is
    below 2^53 in magnitude. *)
Definition parseInt (input : string) : number :=
  let (sign, unsigned) := strip_sign (trim_start input) in
  let (radix, digits) := strip_prefix unsigned in
  match scan_digits radix digits None with
  | Some m => Int (sign * m)
  | None => NaN
  end.

(** The decimal numeral of an integer, as a client writes it into a
    URL: [-] for a negative one, no leading zero. *)
Definition decimal (z : Z) : string :=
  NilZero.string_of_int (Z.to_int z).

(** The outcome of a handler.  [Ok] is [res.json(body)] (status
    200), [NotFound] is [res.status(404).json({ error })], and
    [Threw] is an exception that leaves the handler, which Express
    answers with status 500. *)
Inductive reply (A : Type) : Type :=
| Ok (body : A)
| NotFound (error : string)
| Threw (exn : string).
Arguments Ok {A} body.
Arguments NotFound {A} error.
Arguments Threw {A} exn.

Definition status_code {A : Type} (r : reply A) : Z :=
  match r with
  | Ok _ => 200
  | NotFound _ => 404
  | Threw _ => 500
  end.

End Js.

Import Js.

(** ** Catalog store (product-service) *)

Module Catalog.

Record Product : Type := { id : Z; name : string; price : Z }.

(** The module-level [products] array as it is at process start. *)
Definition products : list Product :=
  [ {| id := 1; name := "Product A"; price := 10 |};
    {| id := 2; name := "Product B"; price := 20 |} ].

(** GET /products: [res.json(products)]. *)
Definition listAll (catalog : list Product) : reply (list Product) :=
  Ok catalog.

(** GET /products/:id:
    [products.find(p => p.id === parseInt(req.params.id))]. *)
Definition getById (catalog : list Product) (id_param : string)
  : reply Product :=
  match List.find (fun p => number_eqb (Int (id p)) (parseInt id_param))
          catalog with
  | Some product => Ok product
  | None => NotFound "Product not found"
  end.

End Catalog.

(** ** Cart store (cart-service) *)

Module Cart.

(** One [{ productId, quantity }] object, both fields exactly as
    the request body gave them. *)
Record CartLine : Type := { productId : value; quantity : value }.

(** The own properties of the [carts] object: one array per user. *)
Abbreviation store := (gmap string (list CartLine)).

(** [carts] is an object literal, so a property read that finds no
    own property goes on to [Object.prototype]. These are its
    members; each is a function, except [__proto__], which reads as
    [Object.prototype] itself. *)
Definition object_prototype_keys : list string :=
  [ "constructor"; "__proto__"; "hasOwnProperty"; "isPrototypeOf";
    "propertyIsEnumerable"; "toLocaleString"; "toString"; "valueOf";
    "__defineGetter__"; "__defineSetter__"; "__lookupGetter__";
    "__lookupSetter__" ].

Definition inherited (key : string) : bool :=
  bool_decide (key ∈ object_prototype_keys).

(** What [carts[userId]] evaluates to. *)
Inductive slot : Type :=
| Missing                           (* undefined *)
| Lines (cart : list CartLine)      (* an array stored by addItem *)
| Member (key : string).            (* a member of Object.prototype *)

Definition read (carts : store) (userId : string) : slot :=
  match carts !! userId with
  | Some cart => Lines cart
  | None => if inherited userId then Member userId else Missing
  end.

(** Truthiness: arrays (empty ones too), functions and objects are
    truthy, [undefined] is not. *)
Definition truthy (s : slot) : bool :=
  match s with
  | Missing => false
  | Lines _ | Member _ => true
  end.

(** The body [{ message, cart }] of the two mutating handlers. *)
Record Updated : Type := { message : string; cart : list CartLine }.

(** POST /cart/:userId with body fields [productId] and [quantity]. *)
Definition addItem (userId : string) (productId quantity : value)
    (carts : store) : reply Updated * store :=
  let carts := if truthy (read carts userId) then carts
               else <[userId := []]> carts in
  match read carts userId with
  | Lines lines =>
      let lines := lines ++ [Build_CartLine productId quantity] in
      (Ok {| message := "Item added"; cart := lines |},
       <[userId := lines]> carts)
  | Member _ | Missing =>
      (Threw "TypeError: carts[userId].push is not a function", carts)
  end.

(** The predicate handed to [filter]:
    [item => item.productId !== n]. *)
Definition kept (n : number) (item : CartLine) : bool :=
  negb (strict_eqb (productId item) n).

(** DELETE /cart/:userId/:productId *)
Definition removeItem (userId productId : string) (carts : store)
  : reply Updated * store :=
  match read carts userId with
  | Lines lines =>
      let lines := List.filter (kept (parseInt productId)) lines in
      (Ok {| message := "Item removed"; cart := lines |},
       <[userId := lines]> carts)
  | Member _ =>
      (Threw "TypeError: carts[userId].filter is not a function", carts)
  | Missing => (NotFound "Cart not found", carts)
  end.

(** GET /cart/:userId: [res.json(carts[userId] || [])]. *)
Definition getCart (userId : string) (carts : store) : reply slot :=
  match read carts userId with
  | Missing => Ok (Lines [])
  | found => Ok found
  end.

(** A run of addItem calls for one user, oldest first. *)
Definition addItems (userId : string) (adds : list CartLine)
    (carts : store) : store :=
  fold_left
    (fun carts line =>
       snd (addItem userId (productId line) (quantity line) carts))
    adds carts.

End Cart.

(** ** Order store (order-service) *)

Module Orders.

Record Order : Type :=
  { orderId : Z; userId : value; items : value; status : string }.

(** The body [{ message, orderId }] of POST /orders. *)
Record Created : Type := { message : string; created : Z }.

(** POST /orders with body fields [userId] and [items]. *)
Definition createOrder (userId items : value) (orders : list Order)
  : reply Created * list Order :=
  let orderId := Z.of_nat (length orders) + 1 in
  (Ok {| message := "Order created"; created := orderId |},
   orders ++ [ {| orderId := orderId; userId := userId; items := items;
                  status := "pending" |} ]).

(** GET /orders/:orderId *)
Definition getOrder (orderId_param : string) (orders : list Order)
  : reply Order :=
  match List.find
          (fun o => number_eqb (Int (orderId o)) (parseInt orderId_param))
          orders with
  | Some order => Ok order
  | None => NotFound "Order not found"
  end.

(** Sequential submissions, oldest first: the replies and the store
    they leave. *)
Fixpoint submit (bodies : list (value * value)) (orders : list Order)
  : list (reply Created) * list Order :=
  match bodies with
  | [] => ([], orders)
  | (userId, items) :: rest =>
      let (r, orders) := createOrder userId items orders in
      let (rs, orders) := submit rest orders in
      (r :: rs, orders)
  end.

Definition created_id (r : reply Created) : option Z :=
  match r with
  | Ok body => Some (created body)
  | _ => None
  end.

End Orders.

(** ** The three stores side by side *)

Module Platform.

(** Each service owns one module-level variable. *)
Record state : Type :=
  { catalog : list Catalog.Product;
    carts : Cart.store;
    orders : list Orders.Order }.

(** Process start: [products] seeded, [carts = {}], [orders = []]. *)
Definition start : state :=
  {| catalog := Catalog.products; carts := ∅; orders := [] |}.

Inductive request : Type :=
| ListAll
| GetById (id : string)
| AddItem (userId : string) (productId quantity : value)
| RemoveItem (userId productId : string)
| GetCart (userId : string)
| CreateOrder (userId items : value)
| GetOrder (orderId : string).

(** The store a request leaves behind; the routes of one service
    only ever touch that service's variable. *)
Definition handle (r : request) (st : state) : state :=
  match r with
  | ListAll | GetById _ | GetCart _ | GetOrder _ => st
  | AddItem userId productId quantity =>
      {| catalog := catalog st;
         carts := snd (Cart.addItem userId productId quantity (carts st));
         orders := orders st |}
  | RemoveItem userId productId =>
      {| catalog := catalog st;
         carts := snd (Cart.removeItem userId productId (carts st));
         orders := orders st |}
  | CreateOrder userId items =>
      {| catalog := catalog st;
         carts := carts st;
         orders := snd (Orders.createOrder userId items (orders st)) |}
  end.

Definition run (rs : list request) (st : state) : state :=
  fold_left (fun st r => handle r st) rs st.

End Platform.

(** Evaluates the digit tests on the literal characters in the goal. *)
Ltac eval_chars :=
  repeat match goal with
    | |- context [digit_value ?r ?c] =>
        let v := eval vm_compute in (digit_value r c) in
        change (digit_value r c) with v
    | |- context [is_white_space ?c] =>
        let v := eval vm_compute in (is_white_space c) in
        change (is_white_space c) with v
    end;
  cbv beta iota.

(** * Properties *)

(** ** [parseInt] on decimal numerals *)

Section ParseInt.

Lemma scan_digits_acc (d : Decimal.uint) (acc : positive) :
  scan_digits 10 (NilEmpty.string_of_uint d) (Some (Zpos acc))
  = Some (Zpos (Pos.of_uint_acc d acc)).
Proof.
  revert acc.
  induction d as [|d IH|d IH|d IH|d IH|d IH|d IH|d IH|d IH|d IH|d IH];
    intros acc; [reflexivity|..];
    cbn [NilEmpty.string_of_uint scan_digits Pos.of_uint_acc];
    rewrite <- IH; eval_chars; do 2 f_equal; lia.
Qed.

Lemma scan_digits_zero (d : Decimal.uint) :
  scan_digits 10 (NilEmpty.string_of_uint d) (Some 0)
  = Some (Z.of_N (Pos.of_uint d)).
Proof.
  induction d as [|d IH|d IH|d IH|d IH|d IH|d IH|d IH|d IH|d IH|d IH];
    [reflexivity|..];
    cbn [NilEmpty.string_of_uint scan_digits Pos.of_uint]; eval_chars;
    first [ exact IH | apply scan_digits_acc ].
Qed.

Lemma scan_digits_start (d : Decimal.uint) :
  d <> Decimal.Nil ->
  scan_digits 10 (NilEmpty.string_of_uint d) None
  = Some (Z.of_N (Pos.of_uint d)).
Proof.
  intros Hd. rewrite <- scan_digits_zero.
  destruct d; [congruence|..]; reflexivity.
Qed.

(** A numeral is taken whole: no white space, sign or [0x] prefix is
    found in it. *)
Lemma parseInt_numeral (d : Decimal.uint) :
  d <> Decimal.Nil ->
  parseInt (NilEmpty.string_of_uint d) = Int (Z.of_N (Pos.of_uint d)).
Proof.
  intros Hd. unfold parseInt.
  assert (Hs : strip_sign (trim_start (NilEmpty.string_of_uint d))
               = (1, NilEmpty.string_of_uint d))
    by (destruct d; [congruence|..]; reflexivity).
  assert (Hp : strip_prefix (NilEmpty.string_of_uint d)
               = (10, NilEmpty.string_of_uint d))
    by (destruct d as [|d|d|d|d|d|d|d|d|d|d]; try reflexivity;
        destruct d; reflexivity).
  rewrite Hs, Hp, (scan_digits_start d Hd).
  f_equal; lia.
Qed.

Lemma parseInt_negative_numeral (d : Decimal.uint) :
  d <> Decimal.Nil ->
  parseInt (String "-" (NilEmpty.string_of_uint d))
  = Int (- Z.of_N (Pos.of_uint d)).
Proof.
  intros Hd. unfold parseInt.
  change (strip_sign (trim_start (String "-" (NilEmpty.string_of_uint d))))
    with (-1, NilEmpty.string_of_uint d).
  cbv beta iota.
  assert (Hp : strip_prefix (NilEmpty.string_of_uint d)
               = (10, NilEmpty.string_of_uint d))
    by (destruct d as [|d|d|d|d|d|d|d|d|d|d]; try reflexivity;
        destruct d; reflexivity).
  rewrite Hp, (scan_digits_start d Hd).
  f_equal; lia.
Qed.

(** Parsing the decimal numeral of an integer gives that integer. *)
Lemma parseInt_decimal (z : Z) : parseInt (decimal z) = Int z.
Proof.
  destruct z as [|p|p]; [reflexivity|..]; unfold decimal;
    cbn [Z.to_int NilZero.string_of_int];
    pose proof (Unsigned.to_uint_nonnil p) as Hp;
    pose proof (Unsigned.of_to p) as Hq;
    assert (Hs : NilZero.string_of_uint (Pos.to_uint p)
                 = NilEmpty.string_of_uint (Pos.to_uint p))
      by (destruct (Pos.to_uint p); [congruence|..]; reflexivity);
    rewrite Hs.
  - rewrite parseInt_numeral, Hq by exact Hp. reflexivity.
  - rewrite parseInt_negative_numeral, Hq by exact Hp. reflexivity.
Qed.

End ParseInt.

(** ** Catalog store *)

Section CatalogFacts.

Import Catalog.

(** A parameter without digits compares unequal to every stored
    identifier, so [find] comes back empty-handed. *)
Lemma find_NaN {A : Type} (key : A -> Z) (l : list A) :
  List.find (fun x => number_eqb (Int (key x)) NaN) l = None.
Proof. induction l as [|x l IH]; [reflexivity | exact IH]. Qed.

(** C4: each seeded identifier (1 and 2) gets exactly its seeded
    record from getById, and every other integer identifier gets
    404 with the error "Product not found". *)
Theorem getById_seeded_or_not_found (z : Z) :
  getById products (decimal z)
  = if decide (z = 1)
    then Ok {| id := 1; name := "Product A"; price := 10 |}
    else if decide (z = 2)
         then Ok {| id := 2; name := "Product B"; price := 20 |}
         else NotFound "Product not found".
Proof.
  unfold getById. rewrite parseInt_decimal.
  cbn [List.find products id number_eqb].
  repeat case_decide; subst; try reflexivity.
  destruct (Z.eqb_spec 1 z); [congruence|].
  destruct (Z.eqb_spec 2 z); [congruence|].
  reflexivity.
Qed.

Lemma handle_catalog (r : Platform.request) (st : Platform.state) :
  Platform.catalog (Platform.handle r st) = Platform.catalog st.
Proof. destruct r; reflexivity. Qed.

Lemma run_catalog (rs : list Platform.request) (st : Platform.state) :
  Platform.catalog (Platform.run rs st) = Platform.catalog st.
Proof.
  revert st. induction rs as [|r rs IH]; intros st; [reflexivity|].
  cbn [Platform.run fold_left]. fold (Platform.run rs (Platform.handle r st)).
  rewrite IH. apply handle_catalog.
Qed.

(** C7: after any sequence of requests to the three services, cart
    and order operations included, listAll returns the two seeded
    records in seed order. *)
Theorem listAll_seeded_after_any_requests (rs : list Platform.request) :
  listAll (Platform.catalog (Platform.run rs Platform.start))
  = Ok [ {| id := 1; name := "Product A"; price := 10 |};
         {| id := 2; name := "Product B"; price := 20 |} ].
Proof. rewrite run_catalog. reflexivity. Qed.

End CatalogFacts.

(** ** Order store *)

Section OrderFacts.

Import Orders.

(** The identifiers handed out by [count] submissions after [n]
    stored orders. *)
Lemma seq_next (f : nat -> Z) (n count : nat) :
  map (fun k => f (S n + k)%nat) (seq 1 count)
  = map (fun k => f (n + k)%nat) (seq 2 count).
Proof.
  rewrite <- (seq_shift count 1), map_map.
  apply map_ext. intros k. f_equal. lia.
Qed.

Lemma submit_from (bodies : list (value * value)) (orders : list Order) :
  let ids :=
    map (fun k => Z.of_nat (length orders + k)) (seq 1 (length bodies)) in
  fst (submit bodies orders)
  = map (fun i => Ok {| message := "Order created"; created := i |}) ids
  /\ map orderId (snd (submit bodies orders)) = map orderId orders ++ ids
  /\ map (fun o => (userId o, items o)) (snd (submit bodies orders))
     = map (fun o => (userId o, items o)) orders ++ bodies
  /\ map status (snd (submit bodies orders))
     = map status orders ++ repeat "pending" (length bodies).
Proof.
  revert orders.
  induction bodies as [|[u i] bodies IH]; intros orders; cbn zeta.
  - cbn. by rewrite !app_nil_r.
  - cbn [submit createOrder].
    set (new := {| orderId := Z.of_nat (length orders) + 1; userId := u;
                   items := i; status := "pending" |}).
    specialize (IH (orders ++ [new])). cbn zeta in IH.
    destruct (submit bodies (orders ++ [new])) as [rs final].
    cbn [fst snd] in *.
    rewrite length_app, !map_app in IH. cbn [length map] in IH.
    replace (length orders + 1)%nat with (S (length orders)) in IH by lia.
    rewrite (seq_next Z.of_nat) in IH.
    destruct IH as (Hr & Hi & Hb & Hs).
    cbn [length seq map repeat].
    replace (Z.of_nat (length orders + 1)) with (Z.of_nat (length orders) + 1)
      by lia.
    rewrite Hr, Hi, Hb, Hs, <- !app_assoc. done.
Qed.

Lemma ids_increasing (a n : nat) :
  StronglySorted Z.lt (map Z.of_nat (seq a n)).
Proof.
  revert a. induction n as [|n IH]; intros a; cbn [seq map]; constructor.
  - apply IH.
  - apply List.Forall_forall. intros z Hz.
    apply List.in_map_iff in Hz as (k & <- & Hk).
    apply List.in_seq in Hk. lia.
Qed.

Lemma ids_distinct (a n : nat) : List.NoDup (map Z.of_nat (seq a n)).
Proof.
  revert a. induction n as [|n IH]; intros a; cbn [seq map]; constructor.
  - intros Hz. apply List.in_map_iff in Hz as (k & Hk & Hin).
    apply List.in_seq in Hin. lia.
  - apply IH.
Qed.

Lemma find_app_none {A : Type} (f : A -> bool) (l1 l2 : list A) :
  (forall x, In x l1 -> f x = false) ->
  List.find f (l1 ++ l2) = List.find f l2.
Proof.
  induction l1 as [|x l1 IH]; intros H; [reflexivity|].
  cbn [app List.find]. rewrite (H x (or_introl eq_refl)).
  apply IH. intros y Hy. apply H. by right.
Qed.

(** C1: sequential createOrder calls from the empty store answer
    with the identifiers 1, 2, ..., n in that order, which are
    strictly increasing and pairwise distinct; each call assigns
    the number of stored orders plus one and stores its order with
    status "pending". *)
Theorem createOrder_sequential_ids (bodies : list (value * value)) :
  let ids := map Z.of_nat (seq 1 (length bodies)) in
  fst (submit bodies [])
  = map (fun i => Ok {| message := "Order created"; created := i |}) ids
  /\ StronglySorted Z.lt ids
  /\ List.NoDup ids
  /\ map orderId (snd (submit bodies [])) = ids
  /\ List.Forall (fun o => status o = "pending") (snd (submit bodies []))
  /\ (forall (u i : value) (orders : list Order),
        createOrder u i orders
        = (Ok {| message := "Order created";
                 created := Z.of_nat (length orders) + 1 |},
           orders ++ [ {| orderId := Z.of_nat (length orders) + 1;
                          userId := u; items := i;
                          status := "pending" |} ])).
Proof.
  destruct (submit_from bodies []) as (Hr & Hi & _ & Hs).
  cbn [length map app Nat.add] in *.
  repeat split; try assumption.
  - apply ids_increasing.
  - apply ids_distinct.
  - apply List.Forall_forall. intros o Ho.
    apply (List.in_map status) in Ho. rewrite Hs in Ho.
    by apply List.repeat_spec in Ho.
Qed.

(** C2: in any store built by sequential submissions, createOrder
    followed by getOrder on the decimal numeral of the identifier
    it returned gives back the record with that identifier, the
    submitted userId and items unchanged, and status "pending". *)
Theorem createOrder_getOrder_round_trip
    (bodies : list (value * value)) (u i : value) :
  let orders := snd (submit bodies []) in
  let id := Z.of_nat (length orders) + 1 in
  fst (createOrder u i orders)
  = Ok {| message := "Order created"; created := id |}
  /\ getOrder (decimal id) (snd (createOrder u i orders))
     = Ok {| orderId := id; userId := u; items := i; status := "pending" |}.
Proof.
  cbn zeta. split; [reflexivity|].
  destruct (submit_from bodies []) as (_ & Hi & _ & _).
  cbn [length map app Nat.add] in Hi.
  set (orders := snd (submit bodies [])) in *.
  unfold getOrder. cbn [createOrder snd]. rewrite parseInt_decimal.
  rewrite find_app_none.
  - cbn [List.find orderId number_eqb]. by rewrite Z.eqb_refl.
  - intros o Ho. cbn [number_eqb]. apply Z.eqb_neq.
    assert (Hlen : length orders = length bodies).
    { rewrite <- (length_map orderId orders), Hi, length_map.
      apply length_seq. }
    apply (List.in_map orderId) in Ho. rewrite Hi in Ho.
    apply List.in_map_iff in Ho as (k & Hk & Hin).
    apply List.in_seq in Hin. lia.
Qed.

End OrderFacts.

(** ** Identifiers that are not numerals *)

Section LookupFacts.

Import Catalog Orders.

(** A parameter that is empty, or whose first character is neither
    white space, a sign nor a decimal digit, has no number in it. *)
Lemma parseInt_empty : parseInt "" = NaN.
Proof. reflexivity. Qed.

Lemma parseInt_no_leading_digit (c : ascii) (rest : string) :
  is_white_space c = false ->
  c <> "-"%char -> c <> "+"%char ->
  digit_value 10 c = None ->
  parseInt (String c rest) = NaN.
Proof.
  intros Hws Hminus Hplus Hdigit.
  destruct c as [[] [] [] [] [] [] [] []];
    first [ reflexivity | congruence
          | vm_compute in Hws; congruence
          | vm_compute in Hdigit; congruence ].
Qed.

(** C8, refuted as stated: "1abc" is the numeral of no integer, yet
    [parseInt] reads its leading 1, so getById answers with
    product 1 and getOrder with order 1 instead of 404. *)
Lemma numeral_prefix_is_looked_up :
  (forall z : Z, "1abc" <> decimal z)
  /\ getById products "1abc"
     = Ok {| id := 1; name := "Product A"; price := 10 |}
  /\ getOrder "1abc" (snd (createOrder (Str "1") (Arr []) []))
     = Ok {| orderId := 1; userId := Str "1"; items := Arr [];
             status := "pending" |}.
Proof.
  split; [|split; reflexivity].
  intros z Hz.
  assert (Hp : parseInt "1abc" = Int z)
    by (rewrite Hz; apply parseInt_decimal).
  vm_compute in Hp. injection Hp as <-.
  vm_compute in Hz. discriminate Hz.
Qed.

(** C8, amended: when [parseInt] finds no digit in the identifier
    (it yields NaN), getById and getOrder both answer 404; and
    whatever the identifier, the catalog and the order store, the
    two handlers answer with status 200 or 404 and nothing else. *)
Theorem lookup_without_number_not_found
    (s : string) (catalog : list Product) (orders : list Order) :
  parseInt s = NaN ->
  getById catalog s = NotFound "Product not found"
  /\ getOrder s orders = NotFound "Order not found"
  /\ (forall s' : string,
        (status_code (getById catalog s') = 200
         \/ status_code (getById catalog s') = 404)
        /\ (status_code (getOrder s' orders) = 200
            \/ status_code (getOrder s' orders) = 404)).
Proof.
  intros Hs. unfold getById, getOrder. rewrite Hs, !find_NaN.
  repeat split; try reflexivity.
  - destruct (List.find _ catalog); [left | right]; reflexivity.
  - destruct (List.find _ orders); [left | right]; reflexivity.
Qed.

Lemma lookup_without_number_not_found_witness :
  parseInt "abc" = NaN
  /\ getById products "abc" = NotFound "Product not found"
  /\ getOrder "abc" (snd (createOrder (Str "1") (Arr []) []))
     = NotFound "Order not found".
Proof.
  split; [reflexivity|].
  pose proof (lookup_without_number_not_found "abc" products
                (snd (createOrder (Str "1") (Arr []) [])) eq_refl)
    as (Hp & Ho & _).
  split; [exact Hp | exact Ho].
Defined.

End LookupFacts.

(** ** Cart store *)

Section CartFacts.

Import Cart.

Implicit Types (carts : store) (u : string) (lines : list CartLine).

Lemma read_own carts u lines :
  carts !! u = Some lines -> read carts u = Lines lines.
Proof. intros H. unfold read. by rewrite H. Qed.

Lemma read_missing carts u :
  carts !! u = None -> inherited u = false -> read carts u = Missing.
Proof. intros H Hi. unfold read. by rewrite H, Hi. Qed.

Lemma read_inherited carts u :
  carts !! u = None -> inherited u = true -> read carts u = Member u.
Proof. intros H Hi. unfold read. by rewrite H, Hi. Qed.

(** *** Users whose name is not a member of [Object.prototype] *)

Lemma addItem_plain carts u (p q : value) :
  inherited u = false ->
  let lines := default [] (carts !! u) ++ [Build_CartLine p q] in
  addItem u p q carts
  = (Ok {| message := "Item added"; cart := lines |}, <[u := lines]> carts).
Proof.
  intros Hi. unfold addItem, read.
  destruct (carts !! u) as [lines|] eqn:E; cbn.
  - by rewrite E.
  - rewrite Hi. cbn. rewrite lookup_insert_eq. cbn.
    by rewrite insert_insert_eq.
Qed.

Lemma getCart_addItems_plain carts u (adds : list CartLine) :
  inherited u = false ->
  getCart u (addItems u adds carts)
  = Ok (Lines (default [] (carts !! u) ++ adds)).
Proof.
  intros Hi. revert carts.
  induction adds as [|[p q] adds IH]; intros carts.
  - rewrite app_nil_r. unfold addItems, getCart, read. cbn.
    destruct (carts !! u); [done|]. by rewrite Hi.
  - unfold addItems in *. cbn [fold_left productId quantity].
    rewrite (addItem_plain carts u p q Hi). cbn [snd].
    rewrite IH, lookup_insert_eq. cbn. by rewrite <- app_assoc.
Qed.

Lemma removeItem_no_cart carts u (p : string) :
  carts !! u = None -> inherited u = false ->
  removeItem u p carts = (NotFound "Cart not found", carts).
Proof. intros H Hi. unfold removeItem. by rewrite read_missing. Qed.

Lemma getCart_no_cart carts u :
  carts !! u = None -> inherited u = false ->
  getCart u carts = Ok (Lines []).
Proof. intros H Hi. unfold getCart. by rewrite read_missing. Qed.

(** *** Removal from a stored cart *)

Lemma removeItem_stored carts u (p : string) lines :
  carts !! u = Some lines ->
  let rest := List.filter (kept (parseInt p)) lines in
  removeItem u p carts
  = (Ok {| message := "Item removed"; cart := rest |}, <[u := rest]> carts).
Proof. intros H. unfold removeItem. by rewrite (read_own _ _ _ H). Qed.

Lemma kept_lines (n : number) lines (line : CartLine) :
  In line (List.filter (kept n) lines)
  <-> In line lines /\ strict_eqb (productId line) n = false.
Proof.
  rewrite List.filter_In. unfold kept.
  destruct (strict_eqb (productId line) n); cbn; intuition congruence.
Qed.


(** *** The stores the service can be in *)

Lemma handle_no_inherited_key (r : Platform.request) (st : Platform.state) :
  (forall k, inherited k = true -> Platform.carts st !! k = None) ->
  forall k, inherited k = true ->
            Platform.carts (Platform.handle r st) !! k = None.
Proof.
  intros Hst k Hk.
  destruct r as [| |u p q|u p| | |]; cbn [Platform.handle Platform.carts];
    try by apply Hst.
  - destruct (inherited u) eqn:Hu.
    + unfold addItem. rewrite (read_inherited _ _ (Hst u Hu) Hu). cbn.
      rewrite (read_inherited _ _ (Hst u Hu) Hu). by apply Hst.
    + rewrite (addItem_plain _ u p q Hu). cbn [snd].
      rewrite lookup_insert_ne by congruence. by apply Hst.
  - unfold removeItem, read.
    destruct (Platform.carts st !! u) as [lines|] eqn:E.
    + cbn [snd]. destruct (inherited u) eqn:Hu.
      * rewrite (Hst u Hu) in E. discriminate.
      * rewrite lookup_insert_ne by congruence. by apply Hst.
    + destruct (inherited u); by apply Hst.
Qed.

Lemma run_no_inherited_key (rs : list Platform.request) (k : string) :
  inherited k = true ->
  Platform.carts (Platform.run rs Platform.start) !! k = None.
Proof.
  assert (H : forall st,
             (forall k, inherited k = true -> Platform.carts st !! k = None) ->
             forall k, inherited k = true ->
                       Platform.carts (Platform.run rs st) !! k = None).
  { induction rs as [|r rs IH]; intros st Hst; [exact Hst|].
    apply (IH (Platform.handle r st)), handle_no_inherited_key, Hst. }
  apply H. intros k' _. apply lookup_empty.
Qed.

(** getCart always answers with status 200. *)
Lemma getCart_status carts u : status_code (getCart u carts) = 200.
Proof. unfold getCart. by destruct (read carts u). Qed.

(** *** Users named like a member of [Object.prototype] *)

(** Whatever requests came before, such a name reads as the
    inherited member: the mutating handlers throw and leave the
    store alone, and getCart answers with the member itself. *)
Lemma inherited_key_behaviour
    (rs : list Platform.request) u (p q : value) (pid : string) :
  inherited u = true ->
  let carts := Platform.carts (Platform.run rs Platform.start) in
  addItem u p q carts
  = (Threw "TypeError: carts[userId].push is not a function", carts)
  /\ removeItem u pid carts
     = (Threw "TypeError: carts[userId].filter is not a function", carts)
  /\ getCart u carts = Ok (Member u).
Proof.
  intros Hu carts.
  pose proof (read_inherited carts u (run_no_inherited_key rs u Hu) Hu) as Hr.
  unfold addItem, removeItem, getCart. rewrite Hr. cbn. by rewrite Hr.
Qed.

(** C3, at the failing input: on the freshly started service, where
    user "constructor" has no cart, DELETE /cart/constructor/1 does
    not answer 404; reading [carts["constructor"]] finds the
    inherited [Object] function, and calling [filter] on it throws. *)
Theorem removeItem_constructor_throws :
  (∅ : store) !! "constructor" = None
  /\ removeItem "constructor" "1" ∅
     = (Threw "TypeError: carts[userId].filter is not a function", ∅)
  /\ status_code (fst (removeItem "constructor" "1" ∅)) = 500.
Proof. by vm_compute. Qed.

(** C5, at the failing input: on the freshly started service,
    POST /cart/constructor with productId 1 and quantity 5 creates
    no cart and returns none; [push] is called on the inherited
    [Object] function and throws, and getCart afterwards answers
    with that function, not with the added line. *)
Theorem addItem_constructor_throws :
  addItem "constructor" (Num (Int 1)) (Num (Int 5)) ∅
  = (Threw "TypeError: carts[userId].push is not a function", ∅)
  /\ getCart "constructor"
       (addItems "constructor"
          [ {| productId := Num (Int 1); quantity := Num (Int 5) |} ] ∅)
     = Ok (Member "constructor").
Proof. by vm_compute. Qed.

(** C6, at the failing input: on the freshly started service, user
    "toString" has no stored cart, yet getCart answers with the
    inherited [toString] function, not with an empty sequence, and
    removeItem throws instead of answering 404. *)
Theorem getCart_toString_not_empty :
  (∅ : store) !! "toString" = None
  /\ getCart "toString" ∅ = Ok (Member "toString")
  /\ fst (removeItem "toString" "1" ∅)
     = Threw "TypeError: carts[userId].filter is not a function".
Proof. by vm_compute. Qed.

(** *** One user's requests and another user's cart *)

Lemma addItem_other carts u u' (p q : value) :
  u <> u' -> snd (addItem u' p q carts) !! u = carts !! u.
Proof.
  intros Hne. unfold addItem, read.
  destruct (carts !! u') as [lines|] eqn:E; cbn.
  - rewrite E. cbn. by rewrite lookup_insert_ne.
  - destruct (inherited u'); cbn.
    + rewrite E. done.
    + rewrite lookup_insert_eq. cbn. by rewrite !lookup_insert_ne.
Qed.

Lemma removeItem_other carts u u' (p : string) :
  u <> u' -> snd (removeItem u' p carts) !! u = carts !! u.
Proof.
  intros Hne. unfold removeItem, read.
  destruct (carts !! u') as [lines|]; cbn.
  - by rewrite lookup_insert_ne.
  - by destruct (inherited u').
Qed.

Lemma getCart_own_lookup carts carts' u :
  carts' !! u = carts !! u ->
  read carts' u = read carts u /\ getCart u carts' = getCart u carts.
Proof. intros H. unfold getCart, read. by rewrite H. Qed.

(** C10: for two distinct users u and u', an addItem or removeItem
    for u' leaves the stored cart of u as it was, absence included,
    and with it what [carts[u]] reads and what getCart answers for
    u. *)
Theorem cart_isolation carts u u' :
  u <> u' ->
  (forall p q : value,
      let carts' := snd (addItem u' p q carts) in
      carts' !! u = carts !! u
      /\ read carts' u = read carts u
      /\ getCart u carts' = getCart u carts)
  /\ (forall p : string,
        let carts' := snd (removeItem u' p carts) in
        carts' !! u = carts !! u
        /\ read carts' u = read carts u
        /\ getCart u carts' = getCart u carts).
Proof.
  intros Hne. split; intros; cbn zeta.
  - pose proof (addItem_other carts u u' p q Hne) as H.
    split; [exact H | by apply getCart_own_lookup].
  - pose proof (removeItem_other carts u u' p Hne) as H.
    split; [exact H | by apply getCart_own_lookup].
Qed.

Lemma cart_isolation_witness :
  "123" <> "456"
  /\ snd (addItem "456" (Num (Int 1)) (Num (Int 5)) ∅) !! "123"
     = (∅ : store) !! "123"
  /\ snd (removeItem "456" "1" ∅) !! "123" = (∅ : store) !! "123".
Proof.
  assert (Hne : "123" <> "456") by discriminate.
  destruct (cart_isolation ∅ "123" "456" Hne) as [Hadd Hremove].
  split; [exact Hne|]. split.
  - exact (proj1 (Hadd (Num (Int 1)) (Num (Int 5)))).
  - exact (proj1 (Hremove "1")).
Defined.

End CartFacts.

(** * Further properties of the handlers *)

(** ** Cart store: adding and removing *)

Section CartMore.

Import Cart.

Implicit Types (carts : store) (u : string) (lines : list CartLine).

(** The line of the README's example request. *)
Local Abbreviation one_of_five :=
  {| productId := Num (Int 1); quantity := Num (Int 5) |}.

Lemma filter_twice {A : Type} (f : A -> bool) (l : list A) :
  List.filter f (List.filter f l) = List.filter f l.
Proof.
  induction l as [|x l IH]; [reflexivity|].
  cbn [List.filter]. destruct (f x) eqn:E; [|exact IH].
  cbn [List.filter]. by rewrite E, IH.
Qed.

Lemma filter_swap {A : Type} (f g : A -> bool) (l : list A) :
  List.filter f (List.filter g l) = List.filter g (List.filter f l).
Proof.
  induction l as [|x l IH]; [reflexivity|].
  cbn [List.filter].
  destruct (f x) eqn:Ef, (g x) eqn:Eg; cbn [List.filter];
    rewrite ?Ef, ?Eg, IH; reflexivity.
Qed.

Lemma filter_all {A : Type} (f : A -> bool) (l : list A) :
  (forall x, f x = true) -> List.filter f l = l.
Proof.
  intros H. induction l as [|x l IH]; [reflexivity|].
  cbn [List.filter]. by rewrite H, IH.
Qed.


Lemma strict_eqb_NaN (v : value) : strict_eqb v NaN = false.
Proof. destruct v as [| | |[|z]| | |]; reflexivity. Qed.

(** X1: for a user whose name is no member of [Object.prototype],
    addItem answers with the user's previous lines followed by the
    new one and stores exactly that; after any run of addItem calls
    getCart returns the previous lines followed by the added ones
    in call order, duplicates kept. *)
Theorem getCart_after_addItems carts u (p q : value) (adds : list CartLine) :
  inherited u = false ->
  addItem u p q carts
  = (Ok {| message := "Item added";
           cart := default [] (carts !! u) ++ [Build_CartLine p q] |},
     <[u := default [] (carts !! u) ++ [Build_CartLine p q]]> carts)
  /\ getCart u (addItems u adds carts)
     = Ok (Lines (default [] (carts !! u) ++ adds)).
Proof.
  intros Hu. split.
  - by apply addItem_plain.
  - by apply getCart_addItems_plain.
Qed.

Lemma getCart_after_addItems_witness :
  inherited "123" = false
  /\ getCart "123" (addItems "123" [one_of_five; one_of_five] ∅)
     = Ok (Lines [one_of_five; one_of_five]).
Proof.
  split; [reflexivity|].
  exact (proj2 (getCart_after_addItems ∅ "123" Undefined Undefined
                  [one_of_five; one_of_five] eq_refl)).
Defined.



(** X3: for a user with no stored cart whose name is no member of
    [Object.prototype], removeItem answers 404 "Cart not found" and
    leaves the store as it was, while getCart answers 200 with an
    empty sequence. *)
Theorem removeItem_absent_user carts u (p : string) :
  carts !! u = None -> inherited u = false ->
  removeItem u p carts = (NotFound "Cart not found", carts)
  /\ getCart u carts = Ok (Lines []).
Proof.
  intros H Hu. split.
  - by apply removeItem_no_cart.
  - by apply getCart_no_cart.
Qed.

Lemma removeItem_absent_user_witness :
  (∅ : store) !! "123" = None /\ inherited "123" = false
  /\ removeItem "123" "1" ∅ = (NotFound "Cart not found", ∅)
  /\ getCart "123" ∅ = Ok (Lines []).
Proof.
  split; [reflexivity|]. split; [reflexivity|].
  exact (removeItem_absent_user ∅ "123" "1" eq_refl eq_refl).
Defined.

(** X4: removing the same product from a stored cart a second time
    changes nothing: the second call gives the reply and the store of
    the first. *)
Theorem removeItem_twice carts u (p : string) lines :
  carts !! u = Some lines ->
  removeItem u p (snd (removeItem u p carts)) = removeItem u p carts.
Proof.
  intros H. rewrite (removeItem_stored carts u p lines H). cbn [snd].
  rewrite (removeItem_stored _ u p _ (lookup_insert_eq _ _ _)).
  by rewrite filter_twice, insert_insert_eq.
Qed.

Lemma removeItem_twice_witness :
  ({[ "123" := [one_of_five] ]} : store) !! "123" = Some [one_of_five]
  /\ removeItem "123" "1"
       (snd (removeItem "123" "1" {[ "123" := [one_of_five] ]}))
     = removeItem "123" "1" {[ "123" := [one_of_five] ]}.
Proof.
  assert (H : ({[ "123" := [one_of_five] ]} : store) !! "123"
              = Some [one_of_five]) by reflexivity.
  split; [exact H|]. exact (removeItem_twice _ "123" "1" _ H).
Defined.

(** X5: when [parseInt] finds no number in the productId parameter,
    removeItem on a stored cart still answers 200 "Item removed", with
    every line kept and the store unchanged. *)
Theorem removeItem_unparsable_keeps_cart carts u (p : string) lines :
  parseInt p = NaN ->
  carts !! u = Some lines ->
  removeItem u p carts
  = (Ok {| message := "Item removed"; cart := lines |}, carts).
Proof.
  intros Hp H. rewrite (removeItem_stored carts u p lines H), Hp.
  rewrite filter_all.
  - by rewrite insert_id.
  - intros line. unfold kept. by rewrite strict_eqb_NaN.
Qed.

Lemma removeItem_unparsable_keeps_cart_witness :
  parseInt "abc" = NaN
  /\ ({[ "123" := [one_of_five] ]} : store) !! "123" = Some [one_of_five]
  /\ removeItem "123" "abc" {[ "123" := [one_of_five] ]}
     = (Ok {| message := "Item removed"; cart := [one_of_five] |},
        {[ "123" := [one_of_five] ]}).
Proof.
  assert (H : ({[ "123" := [one_of_five] ]} : store) !! "123"
              = Some [one_of_five]) by reflexivity.
  split; [reflexivity|]. split; [exact H|].
  exact (removeItem_unparsable_keeps_cart _ "123" "abc" _ eq_refl H).
Defined.

(** X6: a line whose productId is not a number (a string such as
    "1", null, a missing field) is never removed, whatever the
    productId parameter: the comparison is strict. *)
Theorem removeItem_keeps_non_number_lines
    carts u (p : string) lines (line : CartLine) :
  carts !! u = Some lines ->
  In line lines ->
  (forall n : number, productId line <> Num n) ->
  exists rest,
    fst (removeItem u p carts) = Ok {| message := "Item removed"; cart := rest |}
    /\ In line rest.
Proof.
  intros H Hin Hnum. eexists.
  rewrite (removeItem_stored carts u p lines H). split; [reflexivity|].
  apply kept_lines. split; [exact Hin|].
  destruct (productId line) as [| | |n| | |] eqn:E; try reflexivity.
  by destruct (Hnum n).
Qed.

Lemma removeItem_keeps_non_number_lines_witness :
  exists rest,
    fst (removeItem "123" "1"
           {[ "123" := [ {| productId := Str "1"; quantity := Num (Int 5) |} ] ]})
    = Ok {| message := "Item removed"; cart := rest |}
    /\ In {| productId := Str "1"; quantity := Num (Int 5) |} rest.
Proof.
  apply (removeItem_keeps_non_number_lines _ "123" "1"
           [ {| productId := Str "1"; quantity := Num (Int 5) |} ]).
  - reflexivity.
  - by left.
  - intros n. cbn. discriminate.
Defined.

(** X7: for a user whose name is no member of [Object.prototype],
    adding a line for product z and then removing product z (written
    as a decimal numeral) leaves the user's earlier lines without
    those of product z, and the added line is gone; a user without a
    cart ends up with a stored empty cart. *)
Theorem addItem_then_removeItem carts u (z : Z) (q : value) :
  inherited u = false ->
  removeItem u (decimal z) (snd (addItem u (Num (Int z)) q carts))
  = (Ok {| message := "Item removed";
           cart := List.filter (kept (Int z)) (default [] (carts !! u)) |},
     <[u := List.filter (kept (Int z)) (default [] (carts !! u))]> carts).
Proof.
  intros Hu. rewrite (addItem_plain carts u _ q Hu). cbn [snd].
  rewrite (removeItem_stored _ u _ _ (lookup_insert_eq _ _ _)).
  rewrite parseInt_decimal, List.filter_app. cbn [List.filter].
  assert (Hk : kept (Int z) {| productId := Num (Int z); quantity := q |}
               = false)
    by (unfold kept; cbn; by rewrite Z.eqb_refl).
  by rewrite Hk, app_nil_r, insert_insert_eq.
Qed.

Lemma addItem_then_removeItem_witness :
  inherited "123" = false
  /\ removeItem "123" "1" (snd (addItem "123" (Num (Int 1)) (Num (Int 5)) ∅))
     = (Ok {| message := "Item removed"; cart := [] |}, {[ "123" := [] ]}).
Proof.
  split; [reflexivity|].
  exact (addItem_then_removeItem ∅ "123" 1 (Num (Int 5)) eq_refl).
Defined.

(** X8: removing two products from a stored cart gives the same
    reply and the same store in either order. *)
Theorem removeItem_commutes carts u (p1 p2 : string) lines :
  carts !! u = Some lines ->
  removeItem u p2 (snd (removeItem u p1 carts))
  = removeItem u p1 (snd (removeItem u p2 carts)).
Proof.
  intros H.
  rewrite (removeItem_stored carts u p1 lines H),
    (removeItem_stored carts u p2 lines H). cbn [snd].
  rewrite !(removeItem_stored _ u _ _ (lookup_insert_eq _ _ _)).
  by rewrite !insert_insert_eq, filter_swap.
Qed.

Lemma removeItem_commutes_witness :
  ({[ "123" := [one_of_five] ]} : store) !! "123" = Some [one_of_five]
  /\ removeItem "123" "2"
       (snd (removeItem "123" "1" {[ "123" := [one_of_five] ]}))
     = removeItem "123" "1"
         (snd (removeItem "123" "2" {[ "123" := [one_of_five] ]})).
Proof.
  assert (H : ({[ "123" := [one_of_five] ]} : store) !! "123"
              = Some [one_of_five]) by reflexivity.
  split; [exact H|]. exact (removeItem_commutes _ "123" "1" "2" _ H).
Defined.

(** X9: a user named like a member of [Object.prototype] never gets
    a cart. Whatever requests came before, no cart is stored under
    such a name, addItem and removeItem for it throw a TypeError and
    leave the store as it was, and getCart answers with the inherited
    member. *)
Theorem inherited_user_requests_throw
    (rs : list Platform.request) u (p q : value) (pid : string) :
  inherited u = true ->
  let carts := Platform.carts (Platform.run rs Platform.start) in
  carts !! u = None
  /\ addItem u p q carts
     = (Threw "TypeError: carts[userId].push is not a function", carts)
  /\ removeItem u pid carts
     = (Threw "TypeError: carts[userId].filter is not a function", carts)
  /\ getCart u carts = Ok (Member u).
Proof.
  intros Hu carts. split.
  - by apply run_no_inherited_key.
  - by apply inherited_key_behaviour.
Qed.

Lemma inherited_user_requests_throw_witness :
  inherited "valueOf" = true
  /\ getCart "valueOf"
       (Platform.carts
          (Platform.run
             [Platform.AddItem "valueOf" (Num (Int 1)) (Num (Int 5))]
             Platform.start))
     = Ok (Member "valueOf").
Proof.
  split; [reflexivity|].
  exact (proj2 (proj2 (proj2
    (inherited_user_requests_throw
       [Platform.AddItem "valueOf" (Num (Int 1)) (Num (Int 5))]
       "valueOf" Undefined Undefined "1" eq_refl)))).
Defined.

(** X10: what a mutating handler answers is what it stored. Whenever
    addItem or removeItem answers 200, for any user and any store, a
    getCart that follows returns exactly the cart of that answer;
    when either does not answer 200, it has left the store as it
    was. *)
Theorem mutation_reply_is_stored_cart
    carts u (p q : value) (pid : string) :
  match addItem u p q carts with
  | (Ok body, carts') => getCart u carts' = Ok (Lines (cart body))
  | (_, carts') => carts' = carts
  end
  /\ match removeItem u pid carts with
     | (Ok body, carts') => getCart u carts' = Ok (Lines (cart body))
     | (_, carts') => carts' = carts
     end.
Proof.
  split.
  - destruct (inherited u) eqn:Hu.
    + unfold addItem, read.
      destruct (carts !! u) as [lines|] eqn:E; rewrite ?Hu; cbn.
      * rewrite E. unfold getCart, read. by rewrite lookup_insert_eq.
      * by rewrite E.
    + rewrite (addItem_plain carts u p q Hu).
      unfold getCart, read. by rewrite lookup_insert_eq.
  - unfold removeItem, read.
    destruct (carts !! u) as [lines|] eqn:E.
    + unfold getCart, read. by rewrite lookup_insert_eq.
    + by destruct (inherited u).
Qed.

End CartMore.

(** ** Order store: lookups in a growing list *)

Section OrdersMore.

Import Orders.

Lemma submit_cons (u i : value) (rest : list (value * value))
    (orders : list Order) :
  snd (submit ((u, i) :: rest) orders)
  = snd (submit rest (snd (createOrder u i orders))).
Proof.
  cbn [submit createOrder snd].
  by destruct (submit rest _).
Qed.

Lemma submit_app (before after : list (value * value)) (orders : list Order) :
  snd (submit (before ++ after) orders)
  = snd (submit after (snd (submit before orders))).
Proof.
  revert orders. induction before as [|[u i] before IH]; intros orders.
  - reflexivity.
  - cbn [app]. by rewrite !submit_cons, IH.
Qed.

(** Submissions only ever append. *)
Lemma submit_extends (bodies : list (value * value)) (orders : list Order) :
  exists news, snd (submit bodies orders) = orders ++ news.
Proof.
  revert orders. induction bodies as [|[u i] bodies IH]; intros orders.
  - exists []. cbn. by rewrite app_nil_r.
  - rewrite submit_cons. cbn [createOrder snd].
    destruct (IH (orders ++ [ {| orderId := Z.of_nat (length orders) + 1;
                                  userId := u; items := i;
                                  status := "pending" |} ])) as [news ->].
    eexists. by rewrite <- app_assoc.
Qed.

Lemma find_app_found {A : Type} (f : A -> bool) (l1 l2 : list A) (x : A) :
  List.find f l1 = Some x -> List.find f (l1 ++ l2) = Some x.
Proof.
  induction l1 as [|y l1 IH]; [discriminate|].
  cbn [app List.find]. destruct (f y); [done | exact IH].
Qed.

(** The identifiers in a store built by sequential submissions. *)
Lemma submitted_ids (bodies : list (value * value)) (o : Order) :
  In o (snd (submit bodies [])) ->
  1 <= orderId o <= Z.of_nat (length bodies).
Proof.
  intros Ho. destruct (submit_from bodies []) as (_ & Hi & _ & _).
  cbn [length map app Nat.add] in Hi.
  apply (List.in_map orderId) in Ho. rewrite Hi in Ho.
  apply List.in_map_iff in Ho as (k & <- & Hk).
  apply List.in_seq in Hk. lia.
Qed.

Lemma submitted_length (bodies : list (value * value)) :
  length (snd (submit bodies [])) = length bodies.
Proof.
  destruct (submit_from bodies []) as (_ & Hi & _ & _).
  cbn [length map app Nat.add] in Hi.
  rewrite <- (length_map orderId), Hi, length_map. apply length_seq.
Qed.

(** X11: after sequential submissions from the empty store, getOrder
    on the numeral n+1 returns the order of the submission at
    position n (counted from 0): identifier n+1, the userId and items
    of that very submission, status "pending". *)
Theorem getOrder_returns_nth_submission
    (bodies : list (value * value)) (n : nat) (u i : value) :
  nth_error bodies n = Some (u, i) ->
  getOrder (decimal (Z.of_nat n + 1)) (snd (submit bodies []))
  = Ok {| orderId := Z.of_nat n + 1; userId := u; items := i;
          status := "pending" |}.
Proof.
  intros Hn.
  apply List.nth_error_split in Hn as (before & after & -> & Hlen).
  rewrite submit_app, submit_cons. cbn [createOrder snd].
  rewrite (submitted_length before), Hlen.
  destruct (submit_extends after
              (snd (submit before [])
               ++ [ {| orderId := Z.of_nat n + 1; userId := u; items := i;
                       status := "pending" |} ])) as [news ->].
  unfold getOrder. rewrite parseInt_decimal, <- !app_assoc.
  rewrite find_app_none.
  - cbn [app List.find orderId number_eqb]. by rewrite Z.eqb_refl.
  - intros o Ho. apply submitted_ids in Ho.
    cbn [number_eqb]. apply Z.eqb_neq. lia.
Qed.

Lemma getOrder_returns_nth_submission_witness :
  nth_error [(Str "1", Arr []); (Str "2", Null)] 1 = Some (Str "2", Null)
  /\ getOrder "2" (snd (submit [(Str "1", Arr []); (Str "2", Null)] []))
     = Ok {| orderId := 2; userId := Str "2"; items := Null;
             status := "pending" |}.
Proof.
  split; [reflexivity|].
  exact (getOrder_returns_nth_submission
           [(Str "1", Arr []); (Str "2", Null)] 1 (Str "2") Null eq_refl).
Defined.

(** X12: after n sequential submissions from the empty store,
    getOrder on the numeral of an integer below 1 or above n answers
    404 "Order not found". *)
Theorem getOrder_out_of_range (bodies : list (value * value)) (z : Z) :
  z < 1 \/ Z.of_nat (length bodies) < z ->
  getOrder (decimal z) (snd (submit bodies [])) = NotFound "Order not found".
Proof.
  intros Hz. unfold getOrder. rewrite parseInt_decimal.
  rewrite <- (app_nil_r (snd (submit bodies []))), find_app_none;
    [reflexivity|].
  intros o Ho. apply submitted_ids in Ho.
  cbn [number_eqb]. apply Z.eqb_neq. lia.
Qed.

Lemma getOrder_out_of_range_witness :
  (0 < 1 \/ Z.of_nat (length [(Str "1", Arr [])]) < 0)
  /\ getOrder "0" (snd (submit [(Str "1", Arr [])] []))
     = NotFound "Order not found".
Proof.
  split; [left; lia|].
  apply (getOrder_out_of_range [(Str "1", Arr [])] 0). left. lia.
Defined.

(** X13: orders are never changed or hidden by later submissions:
    once getOrder finds an order for a parameter, it finds the same
    order for that parameter after any further createOrder calls,
    whatever the store was. *)
Theorem getOrder_stable_under_submissions
    (s : string) (orders : list Order) (o : Order)
    (bodies : list (value * value)) :
  getOrder s orders = Ok o ->
  getOrder s (snd (submit bodies orders)) = Ok o.
Proof.
  unfold getOrder. intros H.
  destruct (List.find _ orders) as [found|] eqn:E; [|discriminate].
  destruct (submit_extends bodies orders) as [news ->].
  by rewrite (find_app_found _ _ _ _ E).
Qed.

Lemma getOrder_stable_under_submissions_witness :
  getOrder "1" (snd (createOrder (Str "1") (Arr []) []))
  = Ok {| orderId := 1; userId := Str "1"; items := Arr [];
          status := "pending" |}
  /\ getOrder "1"
       (snd (submit [(Str "2", Null)]
               (snd (createOrder (Str "1") (Arr []) []))))
     = Ok {| orderId := 1; userId := Str "1"; items := Arr [];
             status := "pending" |}.
Proof.
  assert (H : getOrder "1" (snd (createOrder (Str "1") (Arr []) []))
              = Ok {| orderId := 1; userId := Str "1"; items := Arr [];
                      status := "pending" |}) by reflexivity.
  split; [exact H|].
  exact (getOrder_stable_under_submissions "1" _ _ [(Str "2", Null)] H).
Defined.

Lemma handle_order_ids (r : Platform.request) (st : Platform.state) :
  map orderId (Platform.orders st)
  = map Z.of_nat (seq 1 (length (Platform.orders st))) ->
  map orderId (Platform.orders (Platform.handle r st))
  = map Z.of_nat (seq 1 (length (Platform.orders (Platform.handle r st)))).
Proof.
  intros H. destruct r; try exact H.
  cbn [Platform.handle Platform.orders createOrder snd].
  rewrite length_app, map_app, seq_app, map_app, <- H.
  cbn [length seq map orderId]. do 2 f_equal. lia.
Qed.

Lemma handle_order_status (r : Platform.request) (st : Platform.state) :
  List.Forall (fun o => status o = "pending") (Platform.orders st) ->
  List.Forall (fun o => status o = "pending")
    (Platform.orders (Platform.handle r st)).
Proof.
  intros H. destruct r; try exact H.
  cbn [Platform.handle Platform.orders createOrder snd].
  apply List.Forall_app. split; [exact H|]. by repeat constructor.
Qed.

(** X14: however the requests to the three services are interleaved,
    the order store always holds the identifiers 1, 2, ..., n in
    that order, n being the number of stored orders, and every stored
    order has status "pending". *)
Theorem order_ids_after_any_requests (rs : list Platform.request) :
  let orders := Platform.orders (Platform.run rs Platform.start) in
  map orderId orders = map Z.of_nat (seq 1 (length orders))
  /\ List.Forall (fun o => status o = "pending") orders.
Proof.
  cbn zeta.
  assert (H : forall st,
             map orderId (Platform.orders st)
             = map Z.of_nat (seq 1 (length (Platform.orders st)))
             /\ List.Forall (fun o => status o = "pending") (Platform.orders st) ->
             map orderId (Platform.orders (Platform.run rs st))
             = map Z.of_nat
                 (seq 1 (length (Platform.orders (Platform.run rs st))))
             /\ List.Forall (fun o => status o = "pending")
                  (Platform.orders (Platform.run rs st))).
  { induction rs as [|r rs IH]; intros st Hst; [exact Hst|].
    apply (IH (Platform.handle r st)). destruct Hst as [Hi Hs]. split.
    - by apply handle_order_ids.
    - by apply handle_order_status. }
  apply H. split; [reflexivity | constructor].
Qed.

End OrdersMore.

(** ** Identifiers in a URL: what the lookups read *)

Section LookupMore.

Import Catalog Orders.

(** X15: whatever the catalog and the identifier, getById never
    throws; a product it returns is a member of the catalog whose id
    is the integer [parseInt] read from the identifier, and it answers
    404 "Product not found" only when no product of the catalog has
    that integer as its id. *)
Theorem getById_reply_matches_request (catalog : list Product) (s : string) :
  match getById catalog s with
  | Ok p => In p catalog /\ parseInt s = Int (id p)
  | NotFound e =>
      e = "Product not found"
      /\ forall p, In p catalog -> parseInt s <> Int (id p)
  | Threw _ => False
  end.
Proof.
  unfold getById.
  destruct (List.find _ catalog) as [p|] eqn:E.
  - apply List.find_some in E as [Hin Heq]. split; [exact Hin|].
    destruct (parseInt s) as [|z]; [discriminate|].
    cbn [number_eqb] in Heq. apply Z.eqb_eq in Heq. by rewrite Heq.
  - split; [reflexivity|]. intros p Hin Heq.
    pose proof (List.find_none _ _ E p Hin) as Hne. cbn beta in Hne.
    rewrite Heq in Hne. cbn [number_eqb] in Hne.
    by rewrite Z.eqb_refl in Hne.
Qed.

Lemma append_empty (s : string) : "" +:+ s = s.
Proof. reflexivity. Qed.

Lemma append_char (c : ascii) (s t : string) :
  String c s +:+ t = String c (s +:+ t).
Proof. reflexivity. Qed.

Lemma scan_digits_then_text (d : Decimal.uint) (c : ascii) (rest : string)
    (acc : option Z) :
  digit_value 10 c = None ->
  scan_digits 10 (NilEmpty.string_of_uint d +:+ String c rest) acc
  = scan_digits 10 (NilEmpty.string_of_uint d) acc.
Proof.
  intros Hc. revert acc.
  induction d as [|d IH|d IH|d IH|d IH|d IH|d IH|d IH|d IH|d IH|d IH];
    intros acc; cbn [NilEmpty.string_of_uint];
    rewrite ?append_char, ?append_empty; cbn [scan_digits];
    [by rewrite Hc|..]; eval_chars; apply IH.
Qed.

Lemma strip_prefix_zero_then_text (c : ascii) (rest : string) :
  c <> "x"%char -> c <> "X"%char ->
  strip_prefix (String "0" (String c rest)) = (10, String "0" (String c rest)).
Proof.
  intros Hx HX.
  destruct c as [[] [] [] [] [] [] [] []];
    first [ reflexivity | congruence ].
Qed.

Lemma strip_prefix_numeral_then_text (d : Decimal.uint) (c : ascii)
    (rest : string) :
  d <> Decimal.Nil ->
  (d = Decimal.D0 Decimal.Nil -> c <> "x"%char /\ c <> "X"%char) ->
  strip_prefix (NilEmpty.string_of_uint d +:+ String c rest)
  = (10, NilEmpty.string_of_uint d +:+ String c rest).
Proof.
  intros Hd Hz.
  destruct d as [|d|d|d|d|d|d|d|d|d|d]; [congruence|..]; try reflexivity.
  destruct d; try reflexivity.
  destruct (Hz eq_refl) as [Hx HX].
  by apply strip_prefix_zero_then_text.
Qed.

Lemma parseInt_numeral_then_text (d : Decimal.uint) (c : ascii)
    (rest : string) :
  d <> Decimal.Nil ->
  digit_value 10 c = None ->
  (d = Decimal.D0 Decimal.Nil -> c <> "x"%char /\ c <> "X"%char) ->
  parseInt (NilEmpty.string_of_uint d +:+ String c rest)
  = Int (Z.of_N (Pos.of_uint d))
  /\ parseInt (String "-" (NilEmpty.string_of_uint d +:+ String c rest))
     = Int (- Z.of_N (Pos.of_uint d)).
Proof.
  intros Hd Hc Hz.
  assert (Hs : strip_sign
                 (trim_start (NilEmpty.string_of_uint d +:+ String c rest))
               = (1, NilEmpty.string_of_uint d +:+ String c rest))
    by (destruct d; [congruence|..]; reflexivity).
  unfold parseInt. split.
  - rewrite Hs, (strip_prefix_numeral_then_text d c rest Hd Hz),
      (scan_digits_then_text d c rest None Hc), (scan_digits_start d Hd).
    f_equal; lia.
  - change (strip_sign (trim_start (String "-" ?s))) with (-1, s).
    cbv beta iota.
    rewrite (strip_prefix_numeral_then_text d c rest Hd Hz),
      (scan_digits_then_text d c rest None Hc), (scan_digits_start d Hd).
    f_equal; lia.
Qed.

Lemma parseInt_decimal_then_text (z : Z) (c : ascii) (rest : string) :
  digit_value 10 c = None ->
  (z = 0 -> c <> "x"%char /\ c <> "X"%char) ->
  parseInt (decimal z +:+ String c rest) = Int z.
Proof.
  intros Hc Hz. destruct z as [|p|p].
  - change (decimal 0) with (NilEmpty.string_of_uint (Decimal.D0 Decimal.Nil)).
    apply (parseInt_numeral_then_text (Decimal.D0 Decimal.Nil) c rest);
      [discriminate | exact Hc | intros _; by apply Hz].
  - unfold decimal. cbn [Z.to_int NilZero.string_of_int].
    pose proof (Unsigned.to_uint_nonnil p) as Hp.
    pose proof (Unsigned.to_uint_nonzero p) as Hp0.
    assert (Hs : NilZero.string_of_uint (Pos.to_uint p)
                 = NilEmpty.string_of_uint (Pos.to_uint p))
      by (destruct (Pos.to_uint p); [congruence|..]; reflexivity).
    rewrite Hs.
    rewrite (proj1 (parseInt_numeral_then_text (Pos.to_uint p) c rest Hp Hc
                      (fun E => False_ind _ (Hp0 E)))).
    by rewrite Unsigned.of_to.
  - unfold decimal. cbn [Z.to_int NilZero.string_of_int].
    pose proof (Unsigned.to_uint_nonnil p) as Hp.
    pose proof (Unsigned.to_uint_nonzero p) as Hp0.
    assert (Hs : NilZero.string_of_uint (Pos.to_uint p)
                 = NilEmpty.string_of_uint (Pos.to_uint p))
      by (destruct (Pos.to_uint p); [congruence|..]; reflexivity).
    rewrite Hs, append_char.
    rewrite (proj2 (parseInt_numeral_then_text (Pos.to_uint p) c rest Hp Hc
                      (fun E => False_ind _ (Hp0 E)))).
    by rewrite Unsigned.of_to.
Qed.

(** X16: text after a decimal numeral is ignored by every lookup.
    When the numeral of z is followed by a character that is no
    decimal digit (and, after the numeral 0, is not x or X, which
    would start a hexadecimal numeral), getById, getOrder and
    removeItem answer exactly as for the numeral alone. *)
Theorem lookups_ignore_trailing_text
    (z : Z) (c : ascii) (rest : string) (catalog : list Product)
    (orders : list Order) (u : string) (carts : Cart.store) :
  digit_value 10 c = None ->
  (z = 0 -> c <> "x"%char /\ c <> "X"%char) ->
  getById catalog (decimal z +:+ String c rest) = getById catalog (decimal z)
  /\ getOrder (decimal z +:+ String c rest) orders = getOrder (decimal z) orders
  /\ Cart.removeItem u (decimal z +:+ String c rest) carts
     = Cart.removeItem u (decimal z) carts.
Proof.
  intros Hc Hz. unfold getById, getOrder, Cart.removeItem.
  by rewrite (parseInt_decimal_then_text z c rest Hc Hz), parseInt_decimal.
Qed.

Lemma lookups_ignore_trailing_text_witness :
  digit_value 10 "." = None
  /\ getById products "2.5" = getById products "2"
  /\ getOrder "2.5" [] = getOrder "2" [].
Proof.
  split; [reflexivity|].
  destruct (lookups_ignore_trailing_text 2 "." "5" products [] "123" ∅
              eq_refl ltac:(lia)) as (Hp & Ho & _).
  split; [exact Hp | exact Ho].
Defined.

Lemma trim_start_blank (blank s : string) :
  trim_start blank = "" -> trim_start (blank +:+ s) = trim_start s.
Proof.
  induction blank as [|c blank IH]; intros H; [reflexivity|].
  rewrite append_char. cbn [trim_start] in *.
  destruct (is_white_space c); [by apply IH | discriminate].
Qed.

(** X17: white space before an identifier is ignored by every
    lookup: prefixing the parameter with a string made of white
    space only does not change what getById, getOrder and removeItem
    answer. *)
Theorem lookups_ignore_leading_white_space
    (blank s : string) (catalog : list Product) (orders : list Order)
    (u : string) (carts : Cart.store) :
  trim_start blank = "" ->
  getById catalog (blank +:+ s) = getById catalog s
  /\ getOrder (blank +:+ s) orders = getOrder s orders
  /\ Cart.removeItem u (blank +:+ s) carts = Cart.removeItem u s carts.
Proof.
  intros H.
  assert (Hp : parseInt (blank +:+ s) = parseInt s)
    by (unfold parseInt; by rewrite (trim_start_blank blank s H)).
  unfold getById, getOrder, Cart.removeItem. by rewrite Hp.
Qed.

Lemma lookups_ignore_leading_white_space_witness :
  trim_start "  " = ""
  /\ getById products "  2" = getById products "2".
Proof.
  split; [reflexivity|].
  exact (proj1 (lookups_ignore_leading_white_space "  " "2" products []
                  "123" ∅ eq_refl)).
Defined.

End LookupMore.
